(** * rpc/getBlock.go: the [getBlock] RPC method of the Solana client

    A shallow embedding of [GetBlock] and [GetBlockWithOpts].  The method
    builds the positional parameters [[slot, obj]], hands them to the JSON-RPC
    transport of the client and maps the transport's answer to the pair
    [(out, err)] that the Go function returns.

    The transport is an external collaborator.  A call to it is a node of the
    command tree [rpc]; [run] interprets a tree against an arbitrary transport
    and records every exchange, so that "the transport is not invoked" is a
    statement about the recorded exchanges. *)

From Stdlib Require Import NArith ZArith.
From stdpp Require Import base strings gmap list.

Local Open Scope string_scope.

(** ** Package [solana]: the encoding names *)

Module solana.

(** [type EncodingType string] *)
Definition EncodingType : Type := string.

(** Modelled from the spec: the constants of the root package, which
    rpc/getBlock.go refers to and which are declared outside this file.  The
    spec gives the four valid encodings as json, jsonParsed, base58 and
    base64, and "json" as the default. *)
Definition EncodingBase58 : EncodingType := "base58".
Definition EncodingBase64 : EncodingType := "base64".
Definition EncodingJSONParsed : EncodingType := "jsonParsed".
Definition EncodingJSON : EncodingType := "json".

(** Modelled from the spec: the variadic membership test of the root
    package ("it must be a member of {json, jsonParsed, base58, base64}"):
    the candidate is compared with each allowed value in turn. *)
Fixpoint IsAnyOfEncodingType (candidate : EncodingType)
         (allowed : list EncodingType) : bool :=
  match allowed with
  | [] => false
  | v :: rest =>
      if String.eqb candidate v then true
      else IsAnyOfEncodingType candidate rest
  end.

End solana.

(** ** Request-side data *)

(** [type TransactionDetailsType string] *)
Definition TransactionDetailsType : Type := string.

Definition TransactionDetailsFull : TransactionDetailsType := "full".
Definition TransactionDetailsSignatures : TransactionDetailsType := "signatures".
Definition TransactionDetailsNone : TransactionDetailsType := "none".

(** Modelled from the spec: [CommitmentType], a type of the package that is
    declared outside this file. The spec has it as a node-defined enumeration
    whose values are strings ("invalid commitment strings are passed
    through"); the method only compares it with the empty string. *)
Definition CommitmentType : Type := string.

(** [uint64]: the slot is handed on as it is, no arithmetic is done on it. *)
Definition uint64 : Type := N.

(** A [*bool] is [None] for the nil pointer and [Some b] for a pointer to [b];
    a [*GetBlockOpts] likewise. *)
Record GetBlockOpts : Type := {
  Encoding : solana.EncodingType;
  TransactionDetails : TransactionDetailsType;
  Rewards : option bool;
  Commitment : CommitmentType
}.

(** The values this method stores in the options object, an [interface{}]
    each: a value keeps its dynamic Go type, and the [*bool] is stored as the
    pointer it is. *)
Inductive any : Type :=
| AnyEncoding (e : solana.EncodingType)
| AnyTransactionDetails (d : TransactionDetailsType)
| AnyBoolPtr (p : option bool)
| AnyCommitment (c : CommitmentType).

(** Modelled from the spec: [M], the package's type of a JSON object under
    construction, declared outside this file ("a mapping" into which each
    option is conditionally inserted): a finite map from keys to values. *)
Abbreviation M := (gmap string any).

(** An element of [params], the [[]interface{}] given to the transport. *)
Inductive param : Type :=
| ParamUint64 (n : uint64)
| ParamM (obj : M).

(** ** Errors *)

(** Modelled from the spec: [ErrNotConfirmed], a package-level error value
    declared outside this file, the spec's "distinct BlockNotConfirmed
    condition"; as a package-level value it is one fixed value, equal to
    itself only.
    The other [error] values that occur are a value made by [fmt.Errorf] from
    a format without [%w], which carries its message and nothing else, and any
    other error value (a JSON-RPC error with its code and message, say), which
    only a transport can produce and which this method never inspects.
    An [Errorf] value stands for its message: that each call of [fmt.Errorf]
    allocates a value of its own is not modelled, so an equation between two
    [Errorf] values says that their messages are the same, not that they are
    one Go value. *)
Inductive error : Type :=
| ErrNotConfirmed
| Errorf (msg : string)
| OtherError (code : Z) (msg : string).

#[global] Instance error_eq_dec : EqDecision error.
Proof. solve_decision. Defined.

#[global] Instance any_eq_dec : EqDecision any.
Proof. solve_decision. Defined.

(** The bundles used in the scenarios. *)
Definition xmlOpts : GetBlockOpts :=
  {| Encoding := "xml"; TransactionDetails := "";
     Rewards := None; Commitment := "" |}.

Definition signaturesOpts : GetBlockOpts :=
  {| Encoding := "base64"; TransactionDetails := "signatures";
     Rewards := Some false; Commitment := "confirmed" |}.

(** Neither the commitment nor the detail level of this one is a value the
    node knows. *)
Definition looseOpts : GetBlockOpts :=
  {| Encoding := ""; TransactionDetails := "everything";
     Rewards := None; Commitment := "bogus" |}.

Section GetBlock.

(** Types owned by external collaborators: [context.Context] and the leaf
    types of the decoded block. *)
Context {context Hash Signature TransactionWithMeta BlockReward : Type}.

(** ** Response-side data *)

(** [GetBlockResult]; its [Rewards] field is [BlockRewards] here, the
    name [Rewards] being taken by the option of the same name. *)
Record GetBlockResult : Type := {
  Blockhash : Hash;
  PreviousBlockhash : Hash;
  ParentSlot : N;
  Transactions : list TransactionWithMeta;
  Signatures : list Signature;
  BlockRewards : list BlockReward;
  BlockTime : option Z;
  BlockHeight : option N
}.

(** What one [CallForInto(ctx, &out, method, params)] leaves behind: the
    pointer now held by [out] (which was nil before the call) and the
    returned error. A transport may well do both. *)
Record Response : Type := {
  into : option GetBlockResult;
  failure : option error
}.

(** ** Calls to the transport *)

(** Modelled from the spec: the transport, [cl.rpcClient], whose code is
    outside this file: "a generic capability Call(method name, ordered
    parameters) -> raw result or error". A computation of the client either
    returns, or makes one such call and goes on with the answer. *)
Inductive rpc (A : Type) : Type :=
| Ret (a : A)
| CallForInto (ctx : context) (method : string) (params : list param)
              (k : Response -> rpc A).

Arguments Ret {A} a.
Arguments CallForInto {A} ctx method params k.

Fixpoint rpc_bind_def {A B : Type} (f : A -> rpc B) (p : rpc A) : rpc B :=
  match p with
  | Ret a => f a
  | CallForInto ctx method params k =>
      CallForInto ctx method params (fun r => rpc_bind_def f (k r))
  end.

#[local] Instance rpc_ret : MRet rpc := @Ret.
#[local] Instance rpc_bind : MBind rpc := @rpc_bind_def.

(** One recorded exchange with the transport. *)
Record Exchange : Type := {
  ex_ctx : context;
  ex_method : string;
  ex_params : list param;
  ex_response : Response
}.

(** A transport answers a call; its answer may depend on everything it was
    asked before. *)
Definition Transport : Type :=
  list Exchange -> context -> string -> list param -> Response.

Fixpoint run {A : Type} (t : Transport) (p : rpc A) (log : list Exchange)
  : A * list Exchange :=
  match p with
  | Ret a => (a, log)
  | CallForInto ctx method params k =>
      let r := t log ctx method params in
      run t (k r)
          (log ++ [{| ex_ctx := ctx; ex_method := method;
                      ex_params := params; ex_response := r |}])
  end.

(** ** The method *)

(** What the function returns: [(out, err)]. *)
Definition Returned : Type := (option GetBlockResult * option error)%type.

(** Lines 74-101: the options object. [inl] is the early [return] of line
    97, [inr] the object with which control reaches line 103. *)
Definition buildObj (opts : option GetBlockOpts) : Returned + M :=
  let obj : M := {[ "encoding" := AnyEncoding solana.EncodingJSON ]} in
  match opts with
  | None => inr obj
  | Some opts =>
      let obj :=
        if negb (String.eqb (TransactionDetails opts) "")
        then <[ "transactionDetails" :=
                  AnyTransactionDetails (TransactionDetails opts) ]> obj
        else obj in
      let obj :=
        match Rewards opts with
        | Some _ => <[ "rewards" := AnyBoolPtr (Rewards opts) ]> obj
        | None => obj
        end in
      let obj :=
        if negb (String.eqb (Commitment opts) "")
        then <[ "commitment" := AnyCommitment (Commitment opts) ]> obj
        else obj in
      if negb (String.eqb (Encoding opts) "") then
        if negb (solana.IsAnyOfEncodingType (Encoding opts)
                   [ solana.EncodingJSON; solana.EncodingJSONParsed;
                     solana.EncodingBase58; solana.EncodingBase64 ])
        then inl (None,
                  Some (Errorf ("provided encoding is not supported: "
                                  ++ Encoding opts)))
        else inr (<[ "encoding" := AnyEncoding (Encoding opts) ]> obj)
      else inr obj
  end.

(** Lines 107-114: what is made of the transport's answer. *)
Definition decode (r : Response) : Returned :=
  match failure r with
  | Some e => (None, Some e)
  | None =>
      match into r with
      | None => (None, Some ErrNotConfirmed)
      | Some b => (Some b, None)
      end
  end.

Definition GetBlockWithOpts (ctx : context) (slot : uint64)
           (opts : option GetBlockOpts) : rpc Returned :=
  match buildObj opts with
  | inl early => mret early
  | inr obj =>
      let params := [ParamUint64 slot; ParamM obj] in
      r ← CallForInto ctx "getBlock" params mret;
      mret (decode r)
  end.

Definition GetBlock (ctx : context) (slot : uint64) : rpc Returned :=
  GetBlockWithOpts ctx slot None.

(** ** Observations on a command tree and on a run *)

(** The first call a tree makes, if it makes one. *)
Definition first_call {A : Type} (p : rpc A)
  : option (context * string * list param) :=
  match p with
  | Ret _ => None
  | CallForInto ctx method params _ => Some (ctx, method, params)
  end.

(** The value a run returns, and the exchanges it added to the log. *)
Definition returned {A : Type} (t : Transport) (p : rpc A)
           (log : list Exchange) : A :=
  fst (run t p log).

Definition exchanges {A : Type} (t : Transport) (p : rpc A)
           (log : list Exchange) : list Exchange :=
  drop (length log) (snd (run t p log)).

(** The encodings the method accepts when one is given (lines 92-95). *)
Definition validEncodings : list solana.EncodingType :=
  [ "json"; "jsonParsed"; "base58"; "base64" ].

(** "Supplied" for the three optional fields that are handed on: a
    non-empty string, a non-nil pointer; a nil bundle supplies nothing. *)
Definition suppliedTransactionDetails (opts : option GetBlockOpts) : Prop :=
  exists o, opts = Some o /\ TransactionDetails o <> "".

Definition suppliedRewards (opts : option GetBlockOpts) : Prop :=
  exists o, opts = Some o /\ Rewards o <> None.

Definition suppliedCommitment (opts : option GetBlockOpts) : Prop :=
  exists o, opts = Some o /\ Commitment o <> "".

Definition nothingSupplied (opts : option GetBlockOpts) : Prop :=
  opts = None \/
  opts = Some {| Encoding := ""; TransactionDetails := "";
                 Rewards := None; Commitment := "" |}.

(** The encoding of the bundle passes the test of lines 88-98: there is no
    bundle, or the field is empty, or it is one of the four. *)
Definition encodingAccepted (opts : option GetBlockOpts) : Prop :=
  match opts with
  | None => True
  | Some o => Encoding o = "" \/ Encoding o ∈ validEncodings
  end.

(** The encoding the options object is to carry (4.1: it "always carries a
    default encoding"): the default, "json", which an encoding given in the
    bundle replaces. *)
Definition encodingToCarry (opts : option GetBlockOpts)
  : solana.EncodingType :=
  match opts with
  | Some o => if String.eqb (Encoding o) "" then "json" else Encoding o
  | None => "json"
  end.

(** The request the spec describes (4.1 and 8): the method calls
    "getBlock" with [[slot, obj]], where [obj] always has the encoding key,
    holding the default "json" unless the bundle gives an encoding, has each
    of the other three keys exactly when the field was supplied, holds no
    nil pointer (nothing goes out as null), and is the one-key object
    [{"encoding": "json"}] when nothing was supplied. *)
Definition requestAsSpecified (ctx : context) (slot : uint64)
           (opts : option GetBlockOpts) : Prop :=
  exists obj : M,
    first_call (GetBlockWithOpts ctx slot opts) =
      Some (ctx, "getBlock", [ParamUint64 slot; ParamM obj])
    /\ obj !! "encoding" = Some (AnyEncoding (encodingToCarry opts))
    /\ (is_Some (obj !! "transactionDetails")
        <-> suppliedTransactionDetails opts)
    /\ (is_Some (obj !! "rewards") <-> suppliedRewards opts)
    /\ (is_Some (obj !! "commitment") <-> suppliedCommitment opts)
    /\ (forall key : string, obj !! key <> Some (AnyBoolPtr None))
    /\ (nothingSupplied opts ->
        obj = {[ "encoding" := AnyEncoding "json" ]}).

(** The three failure conditions of spec section 7. *)
Inductive Condition : Type :=
| UnsupportedEncoding
| TransportError
| BlockNotConfirmed.

(** The condition under which a run that returned an error failed, in the
    words of section 7, read off the exchanges the run made:
    UnsupportedEncoding is "locally detected, pre-transmission";
    TransportError is a "failure from the underlying call";
    BlockNotConfirmed is "transport succeeded but returned an empty
    result". *)
Definition conditionOf (made : list Exchange) : Condition :=
  match made with
  | [] => UnsupportedEncoding
  | ex :: _ =>
      match failure (ex_response ex) with
      | Some _ => TransportError
      | None => BlockNotConfirmed
      end
  end.

(** The two errors the method makes itself: the sentinel of line 112 and
    the message error of line 97. *)
Definition madeByMethod (e : error) : Prop :=
  e = ErrNotConfirmed
  \/ exists enc : string,
       e = Errorf ("provided encoding is not supported: " ++ enc).

(** The errors of the transport are its own (section 7: "network, protocol,
    node-reported RPC error"): in the run, no call fails with one of the two
    errors the method makes itself. *)
Definition transportErrorsAreItsOwn (made : list Exchange) : Prop :=
  forall (ex : Exchange) (e' : error),
    ex ∈ made -> failure (ex_response ex) = Some e' -> ~ madeByMethod e'.

(** Some run of the method, against a transport whose errors are its own,
    fails under condition [c] and hands [e] to its caller. *)
Definition failsWith (c : Condition) (e : error) : Prop :=
  exists (t : Transport) (log : list Exchange) (ctx : context)
         (slot : uint64) (opts : option GetBlockOpts),
    transportErrorsAreItsOwn
      (exchanges t (GetBlockWithOpts ctx slot opts) log)
    /\ snd (returned t (GetBlockWithOpts ctx slot opts) log) = Some e
    /\ conditionOf (exchanges t (GetBlockWithOpts ctx slot opts) log) = c.

(** The three conditions are mutually distinguishable by the caller: the
    error it receives never arises under two of them. *)
Definition conditionsDistinguishable : Prop :=
  forall (e : error) (c1 c2 : Condition),
    failsWith c1 e -> failsWith c2 e -> c1 = c2.

(** What a caller can tell from the error value alone: the sentinel, the
    message of line 97, or anything else. *)
Definition classify (e : error) : Condition :=
  match e with
  | ErrNotConfirmed => BlockNotConfirmed
  | Errorf msg =>
      if String.prefix "provided encoding is not supported: " msg
      then UnsupportedEncoding
      else TransportError
  | OtherError _ _ => TransportError
  end.

(** A transport that gives the same answer to every call. *)
Definition answering (r : Response) : Transport := fun _ _ _ _ => r.

(** The answers used in the scenarios: success with nothing decoded, and a
    failure with the error [e] that leaves [out] as [o]. *)
Definition emptyResponse : Response := {| into := None; failure := None |}.

Definition failed (o : option GetBlockResult) (e : error) : Response :=
  {| into := o; failure := Some e |}.

(** A decoded block with parent slot 4 and nothing in it, both hashes
    being [h]. *)
Definition blockWith (h : Hash) : GetBlockResult :=
  {| Blockhash := h; PreviousBlockhash := h; ParentSlot := 4%N;
     Transactions := []; Signatures := []; BlockRewards := [];
     BlockTime := None; BlockHeight := None |}.

(** The object with which line 103 is reached, one key at a time. *)
Record objectOf (o : GetBlockOpts) (obj : M) : Prop := {
  obj_encoding :
    obj !! "encoding" =
      Some (AnyEncoding (if String.eqb (Encoding o) "" then "json"
                         else Encoding o));
  obj_transactionDetails :
    obj !! "transactionDetails" =
      if String.eqb (TransactionDetails o) "" then None
      else Some (AnyTransactionDetails (TransactionDetails o));
  obj_rewards :
    obj !! "rewards" =
      match Rewards o with
      | Some b => Some (AnyBoolPtr (Some b))
      | None => None
      end;
  obj_commitment :
    obj !! "commitment" =
      if String.eqb (Commitment o) "" then None
      else Some (AnyCommitment (Commitment o));
  obj_no_other_key :
    forall key : string,
      key ∉ [ "encoding"; "transactionDetails"; "rewards"; "commitment" ] ->
      obj !! key = None
}.

(** A run of the method against any transport. *)
Inductive RunOf (t : Transport) (log : list Exchange) (ctx : context)
          (slot : uint64) (opts : option GetBlockOpts) : Prop :=
| RunEarly (early : Returned)
    (Hbuild : buildObj opts = inl early)
    (Hret : returned t (GetBlockWithOpts ctx slot opts) log = early)
    (Hexch : exchanges t (GetBlockWithOpts ctx slot opts) log = [])
| RunCall (obj : M) (r : Response)
    (Hbuild : buildObj opts = inr obj)
    (Hanswer : r = t log ctx "getBlock" [ParamUint64 slot; ParamM obj])
    (Hret : returned t (GetBlockWithOpts ctx slot opts) log = decode r)
    (Hexch : exchanges t (GetBlockWithOpts ctx slot opts) log =
             [{| ex_ctx := ctx; ex_method := "getBlock";
                 ex_params := [ParamUint64 slot; ParamM obj];
                 ex_response := r |}]).

(** The encoding of the bundle fails the test of lines 88-98. *)
Definition encodingRejected (opts : option GetBlockOpts) : Prop :=
  exists o, opts = Some o /\ Encoding o <> "" /\
            (Encoding o ∉ validEncodings).

(** The bundle [o] with its encoding field set to [enc]. *)
Definition withEncoding (enc : solana.EncodingType) (o : GetBlockOpts)
  : GetBlockOpts :=
  {| Encoding := enc; TransactionDetails := TransactionDetails o;
     Rewards := Rewards o; Commitment := Commitment o |}.

(** The keys lines 74-100 put into the options object for the bundle
    [o]. *)
Definition keysOf (o : GetBlockOpts) : gset string :=
  {[ "encoding" ]}
  ∪ (if String.eqb (TransactionDetails o) "" then ∅
     else {[ "transactionDetails" ]})
  ∪ (match Rewards o with Some _ => {[ "rewards" ]} | None => ∅ end)
  ∪ (if String.eqb (Commitment o) "" then ∅ else {[ "commitment" ]}).

(** ** Lemmas on the parts *)

Lemma IsAnyOfEncodingType_elem_of candidate allowed :
  solana.IsAnyOfEncodingType candidate allowed = true <-> candidate ∈ allowed.
Proof.
  induction allowed as [|v rest IH]; simpl.
  - split; [discriminate | intros H; by apply elem_of_nil in H].
  - rewrite elem_of_cons. destruct (String.eqb_spec candidate v) as [->|Hne].
    + split; auto.
    + rewrite IH. split; [auto | intros [?|?]; [contradiction | assumption]].
Qed.

Lemma IsAnyOfEncodingType_not_elem_of candidate allowed :
  solana.IsAnyOfEncodingType candidate allowed = false <-> candidate ∉ allowed.
Proof.
  rewrite <- IsAnyOfEncodingType_elem_of.
  destruct (solana.IsAnyOfEncodingType candidate allowed); split;
    intros; try discriminate; try congruence; done.
Qed.

(** The test of lines 89-96, against the list the claims speak of. *)
Lemma valid_encoding_check (enc : solana.EncodingType) :
  solana.IsAnyOfEncodingType enc
    [ solana.EncodingJSON; solana.EncodingJSONParsed;
      solana.EncodingBase58; solana.EncodingBase64 ] = true
  <-> enc ∈ validEncodings.
Proof. apply IsAnyOfEncodingType_elem_of. Qed.

Lemma buildObj_nil :
  buildObj None = inr {[ "encoding" := AnyEncoding "json" ]}.
Proof. reflexivity. Qed.

(** The early return is taken exactly on a non-empty encoding outside the
    valid ones. *)
Lemma buildObj_rejects (o : GetBlockOpts) :
  Encoding o <> "" -> Encoding o ∉ validEncodings ->
  buildObj (Some o) =
    inl (None, Some (Errorf ("provided encoding is not supported: "
                               ++ Encoding o))).
Proof.
  intros Hne Hout. unfold buildObj.
  apply String.eqb_neq in Hne. rewrite Hne.
  change (negb false) with true. cbv match.
  destruct (solana.IsAnyOfEncodingType _ _) eqn:Hvalid; [|reflexivity].
  apply valid_encoding_check in Hvalid. contradiction.
Qed.

Lemma buildObj_accepts (o : GetBlockOpts) :
  Encoding o = "" \/ Encoding o ∈ validEncodings ->
  exists obj : M, buildObj (Some o) = inr obj /\ objectOf o obj.
Proof.
  intros Hok. unfold buildObj.
  destruct o as [enc td rw cm];
    cbn [Encoding TransactionDetails Rewards Commitment] in *.
  assert (Hvalid : String.eqb enc "" = false ->
    solana.IsAnyOfEncodingType enc
      [ solana.EncodingJSON; solana.EncodingJSONParsed;
        solana.EncodingBase58; solana.EncodingBase64 ] = true).
  { intros He. apply String.eqb_neq in He.
    destruct Hok as [?|Hin]; [contradiction|].
    by apply valid_encoding_check. }
  destruct (String.eqb enc "") eqn:He; [|rewrite (Hvalid eq_refl)];
    destruct (String.eqb td "") eqn:Ht, rw as [b|],
             (String.eqb cm "") eqn:Hc;
    cbn [negb]; cbv match;
    (eexists; split; [reflexivity|]);
    (split; cbn [Encoding TransactionDetails Rewards Commitment];
     rewrite ?He, ?Ht, ?Hc;
     [ by simplify_map_eq | by simplify_map_eq | by simplify_map_eq
     | by simplify_map_eq | ]);
    intros key Hkey;
    repeat (apply not_elem_of_cons in Hkey as [? Hkey]);
    by simplify_map_eq.
Qed.

(** The method is one of two trees: the early return, or one call whose
    answer goes through [decode]. *)
Lemma GetBlockWithOpts_early ctx slot opts early :
  buildObj opts = inl early ->
  GetBlockWithOpts ctx slot opts = Ret early.
Proof. intros H. unfold GetBlockWithOpts. by rewrite H. Qed.

Lemma GetBlockWithOpts_call ctx slot opts obj :
  buildObj opts = inr obj ->
  GetBlockWithOpts ctx slot opts =
    CallForInto ctx "getBlock" [ParamUint64 slot; ParamM obj]
                (fun r => Ret (decode r)).
Proof. intros H. unfold GetBlockWithOpts. by rewrite H. Qed.

Lemma exchanges_Ret {A : Type} (t : Transport) (a : A) log :
  exchanges t (Ret a) log = [].
Proof. unfold exchanges. simpl. by rewrite drop_all. Qed.

(** Every run of the method is of one of the two kinds. *)
Lemma GetBlockWithOpts_run t log ctx slot opts :
  RunOf t log ctx slot opts.
Proof.
  destruct (buildObj opts) as [early|obj] eqn:Hb.
  - apply (RunEarly _ _ _ _ _ early); try done;
      rewrite (GetBlockWithOpts_early _ _ _ _ Hb); [done|].
    apply exchanges_Ret.
  - apply (RunCall _ _ _ _ _ obj _ Hb eq_refl);
      rewrite (GetBlockWithOpts_call _ _ _ _ Hb); [done|].
    unfold exchanges. simpl. by rewrite drop_app_length.
Qed.

Lemma buildObj_early_shape opts early :
  buildObj opts = inl early ->
  exists o, opts = Some o /\ Encoding o <> "" /\
            (Encoding o ∉ validEncodings) /\
            early = (None, Some (Errorf
              ("provided encoding is not supported: " ++ Encoding o))).
Proof.
  destruct opts as [o|]; [|discriminate].
  intros H. exists o.
  destruct (String.eqb_spec (Encoding o) "") as [He|He].
  - destruct (buildObj_accepts o (or_introl He)) as (obj & Hobj & _).
    congruence.
  - destruct (decide (Encoding o ∈ validEncodings)) as [Hin|Hout].
    + destruct (buildObj_accepts o (or_intror Hin)) as (obj & Hobj & _).
      congruence.
    + rewrite (buildObj_rejects o He Hout) in H. by inversion H.
Qed.

Lemma decode_error_nil (r : Response) out e :
  decode r = (out, Some e) -> out = None.
Proof.
  unfold decode. destruct (failure r), (into r); intros H; by inversion H.
Qed.

Lemma decode_not_nil_nil (r : Response) : decode r <> (None, None).
Proof. unfold decode. by destruct (failure r), (into r). Qed.

(** The first call of the method, for a bundle whose encoding passes. *)
Lemma first_call_accepted ctx slot (o : GetBlockOpts) :
  Encoding o = "" \/ Encoding o ∈ validEncodings ->
  exists obj : M,
    first_call (GetBlockWithOpts ctx slot (Some o)) =
      Some (ctx, "getBlock", [ParamUint64 slot; ParamM obj])
    /\ objectOf o obj.
Proof.
  intros Hok. destruct (buildObj_accepts o Hok) as (obj & Hb & Hobj).
  exists obj. split; [|exact Hobj].
  by rewrite (GetBlockWithOpts_call _ _ _ _ Hb).
Qed.

(** Whatever object the method sends for a bundle, it is the object of
    that bundle. *)
Lemma first_call_objectOf ctx slot (o : GetBlockOpts) c m s (obj : M) :
  first_call (GetBlockWithOpts ctx slot (Some o)) =
    Some (c, m, [ParamUint64 s; ParamM obj]) ->
  objectOf o obj.
Proof.
  intros Hcall.
  destruct (buildObj (Some o)) as [early|obj'] eqn:Hb.
  - rewrite (GetBlockWithOpts_early _ _ _ _ Hb) in Hcall. discriminate.
  - pose proof Hb as Hb'.
    rewrite (GetBlockWithOpts_call _ _ _ _ Hb) in Hcall.
    simpl in Hcall. injection Hcall as _ _ _ <-.
    destruct (String.eqb_spec (Encoding o) "") as [He|He].
    + destruct (buildObj_accepts o (or_introl He)) as (obj2 & Hobj & Hof).
      congruence.
    + destruct (decide (Encoding o ∈ validEncodings)) as [Hin|Hout].
      * destruct (buildObj_accepts o (or_intror Hin)) as (obj2 & Hobj & Hof).
        congruence.
      * rewrite (buildObj_rejects o He Hout) in Hb'. discriminate.
Qed.

Lemma first_call_nil ctx slot :
  first_call (GetBlockWithOpts ctx slot None) =
    Some (ctx, "getBlock",
          [ParamUint64 slot;
           ParamM {[ "encoding" := AnyEncoding "json" ]}]).
Proof. reflexivity. Qed.

(** An object that has only the encoding key is the one-key object. *)
Lemma only_encoding (obj : M) (v : any) :
  obj !! "encoding" = Some v ->
  obj !! "transactionDetails" = None ->
  obj !! "rewards" = None ->
  obj !! "commitment" = None ->
  (forall key : string,
      key ∉ [ "encoding"; "transactionDetails"; "rewards"; "commitment" ] ->
      obj !! key = None) ->
  obj = {[ "encoding" := v ]}.
Proof.
  intros He Ht Hr Hc Hother. apply map_eq. intros key.
  destruct (decide (key = "encoding")) as [->|Hne1];
    [by rewrite lookup_singleton_eq|].
  rewrite lookup_singleton_ne by done.
  destruct (decide (key = "transactionDetails")) as [->|Hne2]; [done|].
  destruct (decide (key = "rewards")) as [->|Hne3]; [done|].
  destruct (decide (key = "commitment")) as [->|Hne4]; [done|].
  apply Hother. by repeat (apply not_elem_of_cons; split);
    try apply not_elem_of_nil.
Qed.

(** ** The claims on failing calls *)

(** C1: for every options bundle whose encoding is a non-empty string
    outside json, jsonParsed, base58 and base64, [GetBlockWithOpts] fails
    with the unsupported-encoding error of line 97 and makes no call to the
    transport: the method is the tree that returns at once, and against every
    transport and every earlier history no exchange is added. *)
Theorem GetBlockWithOpts_unsupported_encoding
        (ctx : context) (slot : uint64) (o : GetBlockOpts) :
  Encoding o <> "" ->
  Encoding o ∉ validEncodings ->
  GetBlockWithOpts ctx slot (Some o) =
    Ret (None, Some (Errorf ("provided encoding is not supported: "
                               ++ Encoding o)))
  /\ forall (t : Transport) (log : list Exchange),
       returned t (GetBlockWithOpts ctx slot (Some o)) log =
         (None, Some (Errorf ("provided encoding is not supported: "
                                ++ Encoding o)))
       /\ exchanges t (GetBlockWithOpts ctx slot (Some o)) log = []
       /\ snd (run t (GetBlockWithOpts ctx slot (Some o)) log) = log.
Proof.
  intros Hne Hout.
  pose proof (GetBlockWithOpts_early ctx slot _ _
                (buildObj_rejects o Hne Hout)) as Htree.
  split; [exact Htree|].
  intros t log. rewrite Htree. repeat split. apply exchanges_Ret.
Qed.

(** C2: when the transport call succeeds (no error) and leaves the
    result nil, [GetBlockWithOpts] returns [ErrNotConfirmed] as its error;
    and in no run at all does it return a nil result with a nil error. *)
Theorem GetBlockWithOpts_not_confirmed
        (t : Transport) (log : list Exchange)
        (ctx : context) (slot : uint64) (opts : option GetBlockOpts) :
  returned t (GetBlockWithOpts ctx slot opts) log <> (None, None)
  /\ forall ex : Exchange,
       ex ∈ exchanges t (GetBlockWithOpts ctx slot opts) log ->
       failure (ex_response ex) = None ->
       into (ex_response ex) = None ->
       returned t (GetBlockWithOpts ctx slot opts) log =
         (None, Some ErrNotConfirmed).
Proof.
  destruct (GetBlockWithOpts_run t log ctx slot opts)
    as [early Hb Hret Hexch | obj r Hb Hr Hret Hexch];
    rewrite Hret, Hexch; split.
  - apply buildObj_early_shape in Hb as (o & _ & _ & _ & ->). discriminate.
  - intros ex Hin. by apply elem_of_nil in Hin.
  - apply decode_not_nil_nil.
  - intros ex Hin Hfail Hinto. apply list_elem_of_singleton in Hin.
    subst ex. simpl in Hfail, Hinto. unfold decode.
    by rewrite Hfail, Hinto.
Qed.

(** C6: when the transport call reports an error, [GetBlockWithOpts]
    returns that very error value with a nil result, and the exchange that
    failed is the only one of the run: nothing is wrapped, replaced or
    retried. *)
Theorem GetBlockWithOpts_transport_error
        (t : Transport) (log : list Exchange)
        (ctx : context) (slot : uint64) (opts : option GetBlockOpts)
        (ex : Exchange) (e : error) :
  ex ∈ exchanges t (GetBlockWithOpts ctx slot opts) log ->
  failure (ex_response ex) = Some e ->
  returned t (GetBlockWithOpts ctx slot opts) log = (None, Some e)
  /\ exchanges t (GetBlockWithOpts ctx slot opts) log = [ex].
Proof.
  destruct (GetBlockWithOpts_run t log ctx slot opts)
    as [early Hb Hret Hexch | obj r Hb Hr Hret Hexch];
    rewrite Hret, Hexch; intros Hin Hfail.
  - by apply elem_of_nil in Hin.
  - apply list_elem_of_singleton in Hin. subst ex. simpl in Hfail.
    split; [|reflexivity]. unfold decode. by rewrite Hfail.
Qed.

(** C9: for every context and slot, [GetBlock ctx slot] is the same
    computation as [GetBlockWithOpts ctx slot nil]: against every transport
    and history both return the same result and error and make the same
    exchanges. *)
Theorem GetBlock_is_GetBlockWithOpts_nil (ctx : context) (slot : uint64) :
  GetBlock ctx slot = GetBlockWithOpts ctx slot None
  /\ forall (t : Transport) (log : list Exchange),
       run t (GetBlock ctx slot) log =
         run t (GetBlockWithOpts ctx slot None) log.
Proof. split; [reflexivity | intros t log; reflexivity]. Qed.

(** C10: whenever [GetBlockWithOpts] returns a non-nil error, the result
    it returns with it is nil. *)
Theorem GetBlockWithOpts_error_nil_result
        (t : Transport) (log : list Exchange)
        (ctx : context) (slot : uint64) (opts : option GetBlockOpts)
        (out : option GetBlockResult) (e : error) :
  returned t (GetBlockWithOpts ctx slot opts) log = (out, Some e) ->
  out = None.
Proof.
  destruct (GetBlockWithOpts_run t log ctx slot opts)
    as [early Hb Hret Hexch | obj r Hb Hr Hret Hexch];
    rewrite Hret; intros H.
  - apply buildObj_early_shape in Hb as (o & _ & _ & _ & ->).
    by inversion H.
  - by eapply decode_error_nil.
Qed.

(** ** The claims on the request *)

Lemma empty_not_valid : "" ∉ validEncodings.
Proof.
  unfold validEncodings. intros H.
  repeat (apply elem_of_cons in H as [H|H]; [discriminate|]).
  by apply elem_of_nil in H.
Qed.

(** C3, as amended: for every slot and every options bundle whose encoding
    passes the test (no bundle, an empty encoding, or one of the four valid
    ones), the method calls "getBlock" with [[slot, obj]]; [obj] always has
    the encoding key with the default encoding "json", which only an encoding
    given in the bundle replaces, has each of transactionDetails, rewards and
    commitment exactly when that field was supplied, never holds a nil
    pointer, and for a nil or all-empty bundle is exactly
    [{"encoding": "json"}]. *)
Theorem GetBlockWithOpts_request
        (ctx : context) (slot : uint64) (opts : option GetBlockOpts) :
  encodingAccepted opts -> requestAsSpecified ctx slot opts.
Proof.
  destruct opts as [o|]; simpl; intros Hok.
  - destruct (first_call_accepted ctx slot o Hok)
      as (obj & Hcall & [Henc Htd Hrw Hcm Hother]).
    exists obj. split; [exact Hcall|]. split; [exact Henc|]. repeat split.
    + rewrite Htd. intros [v Hv]. exists o. split; [done|].
      intros Heq. rewrite Heq in Hv. discriminate.
    + rewrite Htd. intros (o' & [= <-] & Hne).
      apply String.eqb_neq in Hne. rewrite Hne. eauto.
    + rewrite Hrw. intros [v Hv]. exists o. split; [done|].
      intros Heq. rewrite Heq in Hv. discriminate.
    + rewrite Hrw. intros (o' & [= <-] & Hne).
      destruct (Rewards o); [eauto | done].
    + rewrite Hcm. intros [v Hv]. exists o. split; [done|].
      intros Heq. rewrite Heq in Hv. discriminate.
    + rewrite Hcm. intros (o' & [= <-] & Hne).
      apply String.eqb_neq in Hne. rewrite Hne. eauto.
    + intros key Hkey.
      destruct (decide (key = "encoding")) as [->|Hne1];
        [rewrite Henc in Hkey; discriminate|].
      destruct (decide (key = "transactionDetails")) as [->|Hne2];
        [rewrite Htd in Hkey;
         destruct (String.eqb (TransactionDetails o) ""); discriminate|].
      destruct (decide (key = "rewards")) as [->|Hne3];
        [rewrite Hrw in Hkey; destruct (Rewards o); discriminate|].
      destruct (decide (key = "commitment")) as [->|Hne4];
        [rewrite Hcm in Hkey;
         destruct (String.eqb (Commitment o) ""); discriminate|].
      rewrite Hother in Hkey; [discriminate|].
      by repeat (apply not_elem_of_cons; split);
        try apply not_elem_of_nil.
    + intros [Hnil|[= ->]]; [discriminate|]. simpl in *.
      by apply only_encoding.
  - exists {[ "encoding" := AnyEncoding "json" ]}.
    split; [apply first_call_nil|].
    split; [by rewrite lookup_singleton_eq|]. repeat split.
    + intros [v Hv]. by rewrite lookup_singleton_ne in Hv.
    + intros (o & Ho & _). discriminate.
    + intros [v Hv]. by rewrite lookup_singleton_ne in Hv.
    + intros (o & Ho & _). discriminate.
    + intros [v Hv]. by rewrite lookup_singleton_ne in Hv.
    + intros (o & Ho & _). discriminate.
    + intros key Hkey.
      apply lookup_singleton_Some in Hkey as [_ Hv]. discriminate.
Qed.

(** C4: for every encoding among json, jsonParsed, base58 and base64
    given in the options bundle, the method makes its call and the options
    object of that call holds exactly that value under the encoding key. *)
Theorem GetBlockWithOpts_encoding_override
        (ctx : context) (slot : uint64) (o : GetBlockOpts) :
  Encoding o ∈ validEncodings ->
  exists obj : M,
    first_call (GetBlockWithOpts ctx slot (Some o)) =
      Some (ctx, "getBlock", [ParamUint64 slot; ParamM obj])
    /\ obj !! "encoding" = Some (AnyEncoding (Encoding o)).
Proof.
  intros Hin.
  destruct (first_call_accepted ctx slot o (or_intror Hin))
    as (obj & Hcall & [Henc _ _ _ _]).
  exists obj. split; [exact Hcall|]. rewrite Henc.
  destruct (String.eqb_spec (Encoding o) "") as [He|He]; [|done].
  rewrite He in Hin. by apply empty_not_valid in Hin.
Qed.

(** C7: the method stops before the transport exactly when the encoding
    is non-empty and not a valid one, whatever the other fields hold; and
    whenever the encoding passes, the call is made and every non-empty
    commitment and transactionDetails value, whatever string it is, is in
    the options object of the call unchanged. *)
Theorem GetBlockWithOpts_passes_through
        (ctx : context) (slot : uint64) (o : GetBlockOpts) :
  (first_call (GetBlockWithOpts ctx slot (Some o)) = None
   <-> Encoding o <> "" /\ Encoding o ∉ validEncodings)
  /\ (Encoding o = "" \/ Encoding o ∈ validEncodings ->
      exists obj : M,
        first_call (GetBlockWithOpts ctx slot (Some o)) =
          Some (ctx, "getBlock", [ParamUint64 slot; ParamM obj])
        /\ (Commitment o <> "" ->
            obj !! "commitment" = Some (AnyCommitment (Commitment o)))
        /\ (TransactionDetails o <> "" ->
            obj !! "transactionDetails" =
              Some (AnyTransactionDetails (TransactionDetails o)))).
Proof.
  split.
  - split.
    + intros Hnone. destruct (buildObj (Some o)) as [early|obj] eqn:Hb.
      * apply buildObj_early_shape in Hb as (o' & [= <-] & ? & ? & _).
        done.
      * rewrite (GetBlockWithOpts_call _ _ _ _ Hb) in Hnone. discriminate.
    + intros [Hne Hout].
      by rewrite (GetBlockWithOpts_early _ _ _ _
                    (buildObj_rejects o Hne Hout)).
  - intros Hok.
    destruct (first_call_accepted ctx slot o Hok)
      as (obj & Hcall & [_ Htd _ Hcm _]).
    exists obj. split; [exact Hcall|]. split; intros Hne;
      apply String.eqb_neq in Hne.
    + by rewrite Hcm, Hne.
    + by rewrite Htd, Hne.
Qed.

(** C8: rewards set to false is not rewards left out. In the options
    object of the call the method makes, a [Rewards] that is a non-nil pointer
    to [false] is the rewards key holding that pointer to [false] (and
    likewise for a pointer to [true]), and a nil [Rewards] is no rewards key;
    and the call is made for every bundle whose encoding passes. *)
Theorem GetBlockWithOpts_rewards
        (ctx : context) (slot : uint64) (o : GetBlockOpts) :
  (Encoding o = "" \/ Encoding o ∈ validEncodings ->
   exists obj : M,
     first_call (GetBlockWithOpts ctx slot (Some o)) =
       Some (ctx, "getBlock", [ParamUint64 slot; ParamM obj]))
  /\ forall obj : M,
       first_call (GetBlockWithOpts ctx slot (Some o)) =
         Some (ctx, "getBlock", [ParamUint64 slot; ParamM obj]) ->
       (Rewards o = Some false ->
        obj !! "rewards" = Some (AnyBoolPtr (Some false)))
       /\ (Rewards o = Some true ->
           obj !! "rewards" = Some (AnyBoolPtr (Some true)))
       /\ (Rewards o = None -> obj !! "rewards" = None).
Proof.
  split.
  - intros Hok.
    destruct (first_call_accepted ctx slot o Hok) as (obj & Hcall & _).
    by exists obj.
  - intros obj Hcall.
    destruct (first_call_objectOf _ _ _ _ _ _ _ Hcall) as [_ _ Hrw _ _].
    rewrite Hrw.
    repeat split; intros ->; reflexivity.
Qed.

(** ** The claim on telling the failures apart *)

(** A string with the prefix [p] is [p] followed by something. *)
Lemma prefix_app (p s : string) :
  String.prefix p s = true -> exists r : string, s = p ++ r.
Proof.
  revert s. induction p as [|a p IH]; intros s Hp.
  - by exists s.
  - destruct s as [|b s]; [discriminate|]. simpl in Hp.
    destruct (Ascii.ascii_dec a b) as [->|]; [|discriminate].
    destruct (IH s Hp) as [r ->]. by exists r.
Qed.

Lemma not_madeByMethod_classify (e : error) :
  ~ madeByMethod e -> classify e = TransportError.
Proof.
  intros Hown. destruct e as [|msg|code msg]; simpl.
  - destruct Hown. by left.
  - destruct (String.prefix _ msg) eqn:Hp; [|reflexivity].
    destruct Hown. right.
    destruct (prefix_app _ _ Hp) as [enc ->]. by exists enc.
  - reflexivity.
Qed.

(** The method hands back a different error on each path: the message
    error of line 97, the error of the transport as it is, and the sentinel
    [ErrNotConfirmed]. So [classify] recovers the condition from the returned
    error in every failing run in which the error of the transport, if it
    reported one, is classified as such. *)
Lemma classify_returned
        (t : Transport) (log : list Exchange)
        (ctx : context) (slot : uint64) (opts : option GetBlockOpts)
        (e : error) :
  snd (returned t (GetBlockWithOpts ctx slot opts) log) = Some e ->
  (forall (ex : Exchange) (e' : error),
      ex ∈ exchanges t (GetBlockWithOpts ctx slot opts) log ->
      failure (ex_response ex) = Some e' ->
      classify e' = TransportError) ->
  classify e =
    conditionOf (exchanges t (GetBlockWithOpts ctx slot opts) log).
Proof.
  destruct (GetBlockWithOpts_run t log ctx slot opts)
    as [early Hb Hret Hexch | obj r Hb Hr Hret Hexch];
    rewrite Hret, Hexch; intros He Htransport.
  - apply buildObj_early_shape in Hb as (o & _ & _ & _ & ->).
    simpl in He. injection He as <-. cbn. by destruct (Encoding o).
  - unfold decode in He. simpl.
    destruct (failure r) as [e'|] eqn:Hfail.
    + simpl in He. injection He as <-.
      apply (Htransport _ e' (list_elem_of_here _ _)). exact Hfail.
    + destruct (into r); simpl in He; [discriminate|].
      by injection He as <-.
Qed.

(** C5: the three failures reach the caller as three mutually
    distinguishable conditions. Against a transport whose errors are its
    own, the error the caller receives never arises under two conditions, and
    [classify] tells from the error alone which of the three it is: the
    sentinel [ErrNotConfirmed], the message of line 97, or the error of the
    transport, handed on as it is. *)
Theorem GetBlockWithOpts_conditions_distinguishable :
  conditionsDistinguishable
  /\ forall (c : Condition) (e : error), failsWith c e -> classify e = c.
Proof.
  assert (Hclassify : forall c e, failsWith c e -> classify e = c).
  { intros c e (t & log & ctx & slot & opts & Hown & He & <-).
    apply classify_returned; [exact He|].
    intros ex e' Hin Hfail. apply not_madeByMethod_classify.
    by apply (Hown ex). }
  split; [|exact Hclassify].
  intros e c1 c2 H1 H2.
  by rewrite <- (Hclassify c1 e H1), <- (Hclassify c2 e H2).
Qed.

(** ** Further properties of the method *)

Lemma buildObj_inr_accepted opts (obj : M) :
  buildObj opts = inr obj -> encodingAccepted opts.
Proof.
  destruct opts as [o|]; [|done]. intros Hb. unfold encodingAccepted.
  destruct (String.eqb_spec (Encoding o) "") as [He|He]; [by left|].
  destruct (decide (Encoding o ∈ validEncodings)) as [Hin|Hout]; [by right|].
  rewrite (buildObj_rejects o He Hout) in Hb. discriminate.
Qed.

Lemma rejected_not_accepted opts :
  encodingRejected opts -> ~ encodingAccepted opts.
Proof. intros (o & -> & Hne & Hout) [He|Hin]; contradiction. Qed.

Lemma buildObj_inl_rejected opts early :
  buildObj opts = inl early -> encodingRejected opts.
Proof.
  intros Hb. apply buildObj_early_shape in Hb as (o & -> & ? & ? & _).
  by exists o.
Qed.

(** What a run returns is made of the answer to its call alone. *)
Lemma returned_of_exchange t log ctx slot opts (ex : Exchange) :
  ex ∈ exchanges t (GetBlockWithOpts ctx slot opts) log ->
  returned t (GetBlockWithOpts ctx slot opts) log = decode (ex_response ex).
Proof.
  destruct (GetBlockWithOpts_run t log ctx slot opts)
    as [early Hb Hret Hexch | obj r Hb Hr Hret Hexch];
    rewrite Hret, Hexch; intros Hin.
  - by apply elem_of_nil in Hin.
  - apply list_elem_of_singleton in Hin. by subst ex.
Qed.

(** X1: a run of the method makes at most one call, and a call it makes
    is the method "getBlock" under the caller's own context with exactly two
    parameters, the slot as given and then the options object. *)
Theorem GetBlockWithOpts_call_shape
        (t : Transport) (log : list Exchange)
        (ctx : context) (slot : uint64) (opts : option GetBlockOpts) :
  length (exchanges t (GetBlockWithOpts ctx slot opts) log) <= 1
  /\ forall ex : Exchange,
       ex ∈ exchanges t (GetBlockWithOpts ctx slot opts) log ->
       ex_ctx ex = ctx /\ ex_method ex = "getBlock"
       /\ exists obj : M, ex_params ex = [ParamUint64 slot; ParamM obj].
Proof.
  destruct (GetBlockWithOpts_run t log ctx slot opts)
    as [early Hb Hret Hexch | obj r Hb Hr Hret Hexch];
    rewrite Hexch; split; simpl; try lia.
  - intros ex Hin. by apply elem_of_nil in Hin.
  - intros ex Hin. apply list_elem_of_singleton in Hin. subst ex. simpl.
    repeat split. by exists obj.
Qed.

(** X2: whether the transport is called is decided by the bundle alone,
    whatever the transport and the history: exactly one call when the
    encoding passes (no bundle, empty, or valid), none when it is non-empty
    and not valid. *)
Theorem GetBlockWithOpts_call_count
        (t : Transport) (log : list Exchange)
        (ctx : context) (slot : uint64) (opts : option GetBlockOpts) :
  (length (exchanges t (GetBlockWithOpts ctx slot opts) log) = 1
   <-> encodingAccepted opts)
  /\ (exchanges t (GetBlockWithOpts ctx slot opts) log = []
      <-> encodingRejected opts).
Proof.
  destruct (GetBlockWithOpts_run t log ctx slot opts)
    as [early Hb Hret Hexch | obj r Hb Hr Hret Hexch];
    rewrite Hexch; simpl.
  - apply buildObj_inl_rejected in Hb. split; split; try done.
    intros Hacc. by apply rejected_not_accepted in Hb.
  - apply buildObj_inr_accepted in Hb. split; split; try done.
    intros Hrej. by apply rejected_not_accepted in Hrej.
Qed.

(** X3: the method returns a block without error exactly when its call
    was answered without error and with a block decoded, and the block it
    returns is that very block. *)
Theorem GetBlockWithOpts_success
        (t : Transport) (log : list Exchange)
        (ctx : context) (slot : uint64) (opts : option GetBlockOpts)
        (b : GetBlockResult) :
  returned t (GetBlockWithOpts ctx slot opts) log = (Some b, None)
  <-> exists ex : Exchange,
        ex ∈ exchanges t (GetBlockWithOpts ctx slot opts) log
        /\ failure (ex_response ex) = None
        /\ into (ex_response ex) = Some b.
Proof.
  split.
  - destruct (GetBlockWithOpts_run t log ctx slot opts)
      as [early Hb Hret Hexch | obj r Hb Hr Hret Hexch];
      rewrite Hret, Hexch.
    + apply buildObj_early_shape in Hb as (o & _ & _ & _ & ->). discriminate.
    + intros Hdec. eexists. split; [apply list_elem_of_here|]. simpl.
      unfold decode in Hdec.
      destruct (failure r); [discriminate|].
      destruct (into r); [|discriminate].
      by injection Hdec as ->.
  - intros (ex & Hin & Hfail & Hinto).
    rewrite (returned_of_exchange _ _ _ _ _ _ Hin).
    unfold decode. by rewrite Hfail, Hinto.
Qed.

(** X4: an error the method returns is of one of three kinds and no
    other: the message error of line 97 for a rejected encoding, made before
    any call; the error its call reported; or [ErrNotConfirmed] after a call
    that reported none and decoded nothing. *)
Theorem GetBlockWithOpts_error_origin
        (t : Transport) (log : list Exchange)
        (ctx : context) (slot : uint64) (opts : option GetBlockOpts)
        (e : error) :
  snd (returned t (GetBlockWithOpts ctx slot opts) log) = Some e ->
  (exists o, opts = Some o /\ Encoding o <> ""
             /\ (Encoding o ∉ validEncodings)
             /\ e = Errorf ("provided encoding is not supported: "
                              ++ Encoding o)
             /\ exchanges t (GetBlockWithOpts ctx slot opts) log = [])
  \/ (exists ex : Exchange,
        exchanges t (GetBlockWithOpts ctx slot opts) log = [ex]
        /\ failure (ex_response ex) = Some e)
  \/ (exists ex : Exchange,
        exchanges t (GetBlockWithOpts ctx slot opts) log = [ex]
        /\ failure (ex_response ex) = None
        /\ into (ex_response ex) = None
        /\ e = ErrNotConfirmed).
Proof.
  destruct (GetBlockWithOpts_run t log ctx slot opts)
    as [early Hb Hret Hexch | obj r Hb Hr Hret Hexch];
    rewrite Hret, Hexch; intros He.
  - left. apply buildObj_early_shape in Hb as (o & -> & ? & ? & ->).
    simpl in He. injection He as <-. by exists o.
  - right. unfold decode in He.
    destruct (failure r) as [e'|] eqn:Hfail.
    + left. simpl in He. injection He as <-. eexists. by split.
    + right. destruct (into r) eqn:Hinto; simpl in He; [discriminate|].
      injection He as <-. eexists. by repeat split.
Qed.

(** X5: giving the encoding "json" explicitly is the same as leaving the
    encoding empty: the method is the same computation for both bundles, the
    other fields being what they are. *)
Theorem GetBlockWithOpts_explicit_json
        (ctx : context) (slot : uint64) (o : GetBlockOpts) :
  Encoding o = "json" ->
  GetBlockWithOpts ctx slot (Some o) =
    GetBlockWithOpts ctx slot (Some (withEncoding "" o)).
Proof.
  destruct o as [enc td rw cm]. simpl. intros ->.
  unfold GetBlockWithOpts, withEncoding, buildObj.
  cbn [Encoding TransactionDetails Rewards Commitment].
  destruct (String.eqb td ""), rw as [b|], (String.eqb cm "");
    cbn; repeat f_equal; apply map_eq; intros key;
    destruct (decide (key = "encoding")) as [->|Hne];
    by simplify_map_eq.
Qed.

(** X6: the options object of the call holds the key "encoding", the keys
    of the fields that were supplied, and no other key. *)
Theorem GetBlockWithOpts_keys
        (ctx : context) (slot : uint64) (o : GetBlockOpts) (obj : M) :
  first_call (GetBlockWithOpts ctx slot (Some o)) =
    Some (ctx, "getBlock", [ParamUint64 slot; ParamM obj]) ->
  dom obj = keysOf o.
Proof.
  intros Hcall.
  destruct (first_call_objectOf _ _ _ _ _ _ _ Hcall)
    as [Henc Htd Hrw Hcm Hother].
  apply set_eq. intros key. rewrite elem_of_dom. unfold keysOf.
  rewrite !elem_of_union, elem_of_singleton.
  assert (Hkey : is_Some (obj !! key) <->
                 key = "encoding"
                 \/ (key = "transactionDetails"
                     /\ String.eqb (TransactionDetails o) "" = false)
                 \/ (key = "rewards" /\ Rewards o <> None)
                 \/ (key = "commitment"
                     /\ String.eqb (Commitment o) "" = false)).
  { destruct (decide (key = "encoding")) as [->|Hne1];
      [rewrite Henc; split; eauto|].
    destruct (decide (key = "transactionDetails")) as [->|Hne2].
    { rewrite Htd. destruct (String.eqb (TransactionDetails o) "");
        split; [intros [? ?]; discriminate | | eauto | eauto].
      intros [?|[[_ ?]|[[? _]|[? _]]]]; discriminate. }
    destruct (decide (key = "rewards")) as [->|Hne3].
    { rewrite Hrw. destruct (Rewards o);
        split; [ right; right; left; done | eauto
               | intros [? ?]; discriminate | ].
      intros [?|[[? _]|[[_ ?]|[? _]]]]; done. }
    destruct (decide (key = "commitment")) as [->|Hne4].
    { rewrite Hcm. destruct (String.eqb (Commitment o) "");
        split; [intros [? ?]; discriminate | | eauto | eauto 6].
      intros [?|[[? _]|[[? _]|[_ ?]]]]; discriminate. }
    rewrite Hother
      by (by repeat (apply not_elem_of_cons; split);
          try apply not_elem_of_nil).
    split; [intros [? ?]; discriminate|].
    intros [?|[[? _]|[[? _]|[? _]]]]; contradiction. }
  rewrite Hkey. clear Hkey Henc Htd Hrw Hcm Hother Hcall.
  destruct (String.eqb (TransactionDetails o) ""), (Rewards o),
    (String.eqb (Commitment o) "");
    rewrite ?elem_of_singleton, ?elem_of_empty; intuition congruence.
Qed.

(** X7: the message of the error for a rejected encoding names that
    encoding and depends on nothing else: two rejected calls return errors
    made by [fmt.Errorf], and their messages are the same exactly when the
    two encodings are, whatever the slots, contexts, transports and other
    fields. *)
Theorem GetBlockWithOpts_error_names_encoding
        (t1 t2 : Transport) (log1 log2 : list Exchange)
        (ctx1 ctx2 : context) (slot1 slot2 : uint64)
        (o1 o2 : GetBlockOpts) :
  encodingRejected (Some o1) ->
  encodingRejected (Some o2) ->
  exists msg1 msg2 : string,
    returned t1 (GetBlockWithOpts ctx1 slot1 (Some o1)) log1 =
      (None, Some (Errorf msg1))
    /\ returned t2 (GetBlockWithOpts ctx2 slot2 (Some o2)) log2 =
        (None, Some (Errorf msg2))
    /\ (msg1 = msg2 <-> Encoding o1 = Encoding o2).
Proof.
  intros (o1' & [= <-] & Hne1 & Hout1) (o2' & [= <-] & Hne2 & Hout2).
  rewrite (GetBlockWithOpts_early ctx1 slot1 _ _
             (buildObj_rejects o1 Hne1 Hout1)).
  rewrite (GetBlockWithOpts_early ctx2 slot2 _ _
             (buildObj_rejects o2 Hne2 Hout2)).
  eexists _, _. split; [reflexivity|]. split; [reflexivity|]. split.
  - intros Heq. by simplify_eq/=.
  - by intros ->.
Qed.

(** X8: each of the three declared detail levels, "none" included, is a
    non-empty string, so a bundle that names one of them has it sent under
    "transactionDetails" as it is: choosing [TransactionDetailsNone] is not
    leaving the field out. *)
Theorem GetBlockWithOpts_detail_levels
        (ctx : context) (slot : uint64) (o : GetBlockOpts) (obj : M) :
  TransactionDetails o ∈
    [ TransactionDetailsFull; TransactionDetailsSignatures;
      TransactionDetailsNone ] ->
  first_call (GetBlockWithOpts ctx slot (Some o)) =
    Some (ctx, "getBlock", [ParamUint64 slot; ParamM obj]) ->
  obj !! "transactionDetails" =
    Some (AnyTransactionDetails (TransactionDetails o)).
Proof.
  intros Hin Hcall.
  destruct (first_call_objectOf _ _ _ _ _ _ _ Hcall) as [_ Htd _ _ _].
  rewrite Htd.
  repeat (apply elem_of_cons in Hin as [->|Hin]; [reflexivity|]).
  by apply elem_of_nil in Hin.
Qed.

(** X9: whatever the bundle, the options object that reaches the
    transport carries one of the four valid encodings under "encoding": the
    given one, or "json" when none was given. *)
Theorem GetBlockWithOpts_sends_valid_encoding
        (t : Transport) (log : list Exchange)
        (ctx : context) (slot : uint64) (opts : option GetBlockOpts)
        (ex : Exchange) :
  ex ∈ exchanges t (GetBlockWithOpts ctx slot opts) log ->
  exists (obj : M) (enc : solana.EncodingType),
    ex_params ex = [ParamUint64 slot; ParamM obj]
    /\ obj !! "encoding" = Some (AnyEncoding enc)
    /\ enc ∈ validEncodings
    /\ enc = match opts with
             | Some o => if String.eqb (Encoding o) "" then "json"
                         else Encoding o
             | None => "json"
             end.
Proof.
  destruct (GetBlockWithOpts_run t log ctx slot opts)
    as [early Hb Hret Hexch | obj r Hb Hr Hret Hexch];
    rewrite Hexch; intros Hin.
  - by apply elem_of_nil in Hin.
  - apply list_elem_of_singleton in Hin. subst ex. simpl.
    exists obj. destruct opts as [o|].
    + pose proof (buildObj_inr_accepted _ _ Hb) as Hacc.
      destruct (buildObj_accepts o Hacc) as (obj' & Hb' & [Henc _ _ _ _]).
      assert (obj' = obj) as -> by congruence.
      eexists. split; [reflexivity|]. split; [exact Henc|].
      split; [|reflexivity].
      destruct (String.eqb_spec (Encoding o) "") as [He|He].
      * unfold validEncodings. apply list_elem_of_here.
      * destruct Hacc as [?|?]; [contradiction | assumption].
    + rewrite buildObj_nil in Hb. injection Hb as <-.
      exists "json". split; [reflexivity|].
      split; [by rewrite lookup_singleton_eq|].
      split; [apply list_elem_of_here | reflexivity].
Qed.

(** X10: the answer is not checked against the request. What the method
    returns after a call is made of the transport's answer alone: two calls
    with any slots, contexts and bundles that got the same answer return the
    same result and error. *)
Theorem GetBlockWithOpts_answer_only
        (t1 t2 : Transport) (log1 log2 : list Exchange)
        (ctx1 ctx2 : context) (slot1 slot2 : uint64)
        (opts1 opts2 : option GetBlockOpts) (ex1 ex2 : Exchange) :
  ex1 ∈ exchanges t1 (GetBlockWithOpts ctx1 slot1 opts1) log1 ->
  ex2 ∈ exchanges t2 (GetBlockWithOpts ctx2 slot2 opts2) log2 ->
  ex_response ex1 = ex_response ex2 ->
  returned t1 (GetBlockWithOpts ctx1 slot1 opts1) log1 =
    returned t2 (GetBlockWithOpts ctx2 slot2 opts2) log2.
Proof.
  intros Hin1 Hin2 Heq.
  rewrite (returned_of_exchange _ _ _ _ _ _ Hin1).
  rewrite (returned_of_exchange _ _ _ _ _ _ Hin2).
  by rewrite Heq.
Qed.

(** X11: [GetBlock] always reaches the transport, once, with the slot and
    the one-key object [{"encoding": "json"}]; it has no failure of its own
    before the call, so an error it returns is the transport's or
    [ErrNotConfirmed]. *)
Theorem GetBlock_default_request
        (t : Transport) (log : list Exchange)
        (ctx : context) (slot : uint64) :
  exchanges t (GetBlock ctx slot) log =
    [{| ex_ctx := ctx; ex_method := "getBlock";
        ex_params :=
          [ParamUint64 slot; ParamM {[ "encoding" := AnyEncoding "json" ]}];
        ex_response :=
          t log ctx "getBlock"
            [ParamUint64 slot;
             ParamM {[ "encoding" := AnyEncoding "json" ]}] |}]
  /\ forall e : error,
       snd (returned t (GetBlock ctx slot) log) = Some e ->
       e = ErrNotConfirmed
       \/ failure (t log ctx "getBlock"
                     [ParamUint64 slot;
                      ParamM {[ "encoding" := AnyEncoding "json" ]}]) =
            Some e.
Proof.
  unfold GetBlock.
  destruct (GetBlockWithOpts_run t log ctx slot None)
    as [early Hb Hret Hexch | obj r Hb Hr Hret Hexch].
  - rewrite buildObj_nil in Hb. discriminate.
  - rewrite buildObj_nil in Hb. injection Hb as <-.
    rewrite Hret, Hexch, Hr. split; [reflexivity|].
    intros e He. unfold decode in He.
    destruct (failure _) as [e'|]; simpl in He.
    + right. by injection He as <-.
    + left. destruct (into _); simpl in He; [discriminate|].
      by injection He as <-.
Qed.

End GetBlock.

(** * The scenarios of spec section 8, and instances of the claims

    The external types are taken to be [unit] here: the method never looks
    inside a context or a decoded block. *)

Local Abbreviation getBlockWithOpts :=
  (@GetBlockWithOpts unit unit unit unit unit).
Local Abbreviation transport := (@Transport unit unit unit unit unit).
Local Abbreviation block := (@blockWith unit unit unit unit tt).

(** Scenario: slot 5, no options: the parameters are
    [[5, {"encoding": "json"}]]. *)
Example scenario_slot_5_no_options :
  first_call (GetBlock (Hash:=unit) (Signature:=unit)
                (TransactionWithMeta:=unit) (BlockReward:=unit) tt 5%N) =
    Some (tt, "getBlock",
          [ParamUint64 5%N; ParamM {[ "encoding" := AnyEncoding "json" ]}]).
Proof. reflexivity. Qed.

(** Scenario: slot 5, no options, the transport decodes a block with parent
    slot 4: the block comes back, with no error. *)
Example scenario_slot_5_block :
  returned (answering {| into := Some block; failure := None |})
           (getBlockWithOpts tt 5%N None) [] =
    (Some block, None)
  /\ ParentSlot block = 4%N.
Proof. split; reflexivity. Qed.

(** Slot 7 with every option set: the object has the four keys and the
    given encoding in place of the default. *)
Example scenario_all_options :
  first_call (getBlockWithOpts tt 7%N (Some signaturesOpts)) =
    Some (tt, "getBlock",
          [ParamUint64 7%N;
           ParamM (list_to_map
                     [ ("encoding", AnyEncoding "base64");
                       ("transactionDetails",
                        AnyTransactionDetails "signatures");
                       ("rewards", AnyBoolPtr (Some false));
                       ("commitment", AnyCommitment "confirmed") ])]).
Proof. vm_compute. reflexivity. Qed.

(** Scenario: slot 10, encoding "xml": the error at once, and no exchange
    with the transport, whatever the transport would have answered. *)
Example scenario_slot_10_xml (t : transport) :
  run t (getBlockWithOpts tt 10%N (Some xmlOpts)) [] =
    ((None, Some (Errorf "provided encoding is not supported: xml")), []).
Proof. reflexivity. Qed.

(** Scenario: slot 999999, the transport returns an empty result. *)
Example scenario_slot_999999_empty :
  returned (answering emptyResponse)
           (getBlockWithOpts tt 999999%N None) [] =
    (None, Some ErrNotConfirmed).
Proof. reflexivity. Qed.

Lemma xml_not_valid : "xml" ∉ validEncodings.
Proof.
  unfold validEncodings. intros H.
  repeat (apply elem_of_cons in H as [H|H]; [discriminate|]).
  by apply elem_of_nil in H.
Qed.

Lemma base64_valid : "base64" ∈ validEncodings.
Proof. unfold validEncodings. set_solver. Qed.

(** C1 at slot 10 with encoding "xml". *)
Lemma GetBlockWithOpts_unsupported_encoding_witness :
  Encoding xmlOpts <> "" /\ (Encoding xmlOpts ∉ validEncodings)
  /\ forall (t : transport) (log : list Exchange),
      returned t (getBlockWithOpts tt 10%N (Some xmlOpts)) log =
        (None, Some (Errorf "provided encoding is not supported: xml"))
      /\ exchanges t (getBlockWithOpts tt 10%N (Some xmlOpts)) log = [].
Proof.
  split; [discriminate|]. split; [exact xml_not_valid|].
  intros t log.
  destruct (GetBlockWithOpts_unsupported_encoding
              (Hash:=unit) (Signature:=unit) (TransactionWithMeta:=unit)
              (BlockReward:=unit) tt 10%N xmlOpts)
    as [_ Hrun]; [discriminate | exact xml_not_valid |].
  destruct (Hrun t log) as (Hret & Hexch & _). split; assumption.
Defined.

(** C2 at slot 999999 against a transport that succeeds with nothing. *)
Lemma GetBlockWithOpts_not_confirmed_witness :
  returned (answering emptyResponse)
           (getBlockWithOpts tt 999999%N None) [] =
    (None, Some ErrNotConfirmed).
Proof.
  eapply (proj2 (GetBlockWithOpts_not_confirmed
                   (answering emptyResponse) [] tt 999999%N None)).
  - unfold exchanges. simpl. apply list_elem_of_here.
  - reflexivity.
  - reflexivity.
Defined.

(** C3 as stated fails at slot 10 with encoding "xml": for that bundle the
    method makes no call, so no parameter list is produced at all. *)
Lemma GetBlockWithOpts_request_counterexample :
  ~ requestAsSpecified (Hash:=unit) (Signature:=unit)
      (TransactionWithMeta:=unit) (BlockReward:=unit)
      tt 10%N (Some xmlOpts).
Proof. intros (obj & Hcall & _). discriminate Hcall. Qed.

(** C3 as amended, at slot 7 with base64, signatures, rewards off and the
    commitment "confirmed". *)
Lemma GetBlockWithOpts_request_witness :
  encodingAccepted (Some signaturesOpts)
  /\ requestAsSpecified (Hash:=unit) (Signature:=unit)
       (TransactionWithMeta:=unit) (BlockReward:=unit)
       tt 7%N (Some signaturesOpts).
Proof.
  split; [right; exact base64_valid|].
  apply GetBlockWithOpts_request. right. exact base64_valid.
Defined.

(** C4 at slot 7 with base64. *)
Lemma GetBlockWithOpts_encoding_override_witness :
  Encoding signaturesOpts ∈ validEncodings
  /\ exists obj : M,
      first_call (getBlockWithOpts tt 7%N (Some signaturesOpts)) =
        Some (tt, "getBlock", [ParamUint64 7%N; ParamM obj])
      /\ obj !! "encoding" = Some (AnyEncoding "base64").
Proof.
  split; [exact base64_valid|].
  apply (GetBlockWithOpts_encoding_override
           (Hash:=unit) (Signature:=unit) (TransactionWithMeta:=unit)
           (BlockReward:=unit) tt 7%N signaturesOpts).
  exact base64_valid.
Defined.

(** C5 at one run for each condition: encoding "xml", a transport that
    fails with a JSON-RPC error, and a transport that succeeds with nothing
    decoded. *)
Lemma GetBlockWithOpts_conditions_distinguishable_witness :
  failsWith (context:=unit) (Hash:=unit) (Signature:=unit)
    (TransactionWithMeta:=unit) (BlockReward:=unit)
    UnsupportedEncoding (Errorf "provided encoding is not supported: xml")
  /\ failsWith (context:=unit) (Hash:=unit) (Signature:=unit)
       (TransactionWithMeta:=unit) (BlockReward:=unit)
       TransportError (OtherError (-32004) "Block not available for slot 5")
  /\ failsWith (context:=unit) (Hash:=unit) (Signature:=unit)
       (TransactionWithMeta:=unit) (BlockReward:=unit)
       BlockNotConfirmed ErrNotConfirmed
  /\ classify (OtherError (-32004) "Block not available for slot 5") =
       TransportError.
Proof.
  assert (Hxml : failsWith (context:=unit) (Hash:=unit) (Signature:=unit)
                   (TransactionWithMeta:=unit) (BlockReward:=unit)
                   UnsupportedEncoding
                   (Errorf "provided encoding is not supported: xml")).
  { exists (answering emptyResponse), [], tt, 10%N, (Some xmlOpts).
    split; [|split; reflexivity].
    intros ex e' Hin. unfold exchanges in Hin. simpl in Hin.
    by apply elem_of_nil in Hin. }
  assert (Hrpc : failsWith (context:=unit) (Hash:=unit) (Signature:=unit)
                   (TransactionWithMeta:=unit) (BlockReward:=unit)
                   TransportError
                   (OtherError (-32004) "Block not available for slot 5")).
  { exists (answering
              (failed None
                 (OtherError (-32004) "Block not available for slot 5"))),
      [], tt, 5%N, None.
    split; [|split; reflexivity].
    intros ex e' Hin Hfail. unfold exchanges in Hin. simpl in Hin.
    apply list_elem_of_singleton in Hin. subst ex. simpl in Hfail.
    injection Hfail as <-. intros [Hs|[enc Hm]]; discriminate. }
  assert (Hempty : failsWith (context:=unit) (Hash:=unit) (Signature:=unit)
                     (TransactionWithMeta:=unit) (BlockReward:=unit)
                     BlockNotConfirmed ErrNotConfirmed).
  { exists (answering emptyResponse), [], tt, 999999%N, None.
    split; [|split; reflexivity].
    intros ex e' Hin Hfail. unfold exchanges in Hin. simpl in Hin.
    apply list_elem_of_singleton in Hin. subst ex. discriminate Hfail. }
  split; [exact Hxml|]. split; [exact Hrpc|]. split; [exact Hempty|].
  exact (proj2 GetBlockWithOpts_conditions_distinguishable _ _ Hrpc).
Defined.

(** C6 against the same transport: its error comes back as it is. *)
Lemma GetBlockWithOpts_transport_error_witness :
  returned
    (answering
       (failed None (OtherError (-32004) "Block not available for slot 5")))
    (getBlockWithOpts tt 5%N None) [] =
    (None, Some (OtherError (-32004) "Block not available for slot 5"))
  /\ length
      (exchanges
         (answering
            (failed None
               (OtherError (-32004) "Block not available for slot 5")))
         (getBlockWithOpts tt 5%N None) []) = 1.
Proof.
  destruct (GetBlockWithOpts_transport_error
              (Hash:=unit) (Signature:=unit) (TransactionWithMeta:=unit)
              (BlockReward:=unit)
              (answering
                 (failed None
                    (OtherError (-32004) "Block not available for slot 5")))
              [] tt 5%N None
              {| ex_ctx := tt; ex_method := "getBlock";
                 ex_params :=
                   [ParamUint64 5%N;
                    ParamM {[ "encoding" := AnyEncoding "json" ]}];
                 ex_response :=
                   failed None
                     (OtherError (-32004) "Block not available for slot 5") |}
              (OtherError (-32004) "Block not available for slot 5"))
    as [Hret Hexch].
  - unfold exchanges. simpl. apply list_elem_of_here.
  - reflexivity.
  - split; [exact Hret | by rewrite Hexch].
Defined.

(** C7 with a commitment and a detail level the node does not know: both
    go out as they are. *)
Lemma GetBlockWithOpts_passes_through_witness :
  exists obj : M,
    first_call (getBlockWithOpts tt 7%N (Some looseOpts)) =
      Some (tt, "getBlock", [ParamUint64 7%N; ParamM obj])
    /\ obj !! "commitment" = Some (AnyCommitment "bogus")
    /\ obj !! "transactionDetails" =
        Some (AnyTransactionDetails "everything").
Proof.
  destruct (proj2 (GetBlockWithOpts_passes_through
                     (Hash:=unit) (Signature:=unit)
                     (TransactionWithMeta:=unit) (BlockReward:=unit)
                     tt 7%N looseOpts))
    as (obj & Hcall & Hcm & Htd); [left; reflexivity|].
  exists obj. split; [exact Hcall|].
  split; [apply Hcm | apply Htd]; discriminate.
Defined.

(** C8 with rewards switched off. *)
Lemma GetBlockWithOpts_rewards_witness :
  exists obj : M,
    first_call (getBlockWithOpts tt 7%N (Some signaturesOpts)) =
      Some (tt, "getBlock", [ParamUint64 7%N; ParamM obj])
    /\ obj !! "rewards" = Some (AnyBoolPtr (Some false)).
Proof.
  destruct (GetBlockWithOpts_rewards
              (Hash:=unit) (Signature:=unit) (TransactionWithMeta:=unit)
              (BlockReward:=unit) tt 7%N signaturesOpts)
    as [Hcalled Hobj].
  destruct Hcalled as [obj Hcall]; [right; exact base64_valid|].
  exists obj. split; [exact Hcall|].
  destruct (Hobj obj Hcall) as (Hfalse & _ & _).
  apply Hfalse. reflexivity.
Defined.

(** C10 against a transport that reports an error and has filled the
    result all the same: the caller gets the error and a nil result. *)
Lemma GetBlockWithOpts_error_nil_result_witness :
  fst (returned
         (answering (failed (Some block) (OtherError 1 "cancelled")))
         (getBlockWithOpts tt 5%N None) []) = None.
Proof.
  apply (GetBlockWithOpts_error_nil_result
           (answering (failed (Some block) (OtherError 1 "cancelled")))
           [] tt 5%N None _ (OtherError 1 "cancelled")).
  reflexivity.
Defined.

(** ** Instances of the further properties *)

Lemma xml_rejected : encodingRejected (Some xmlOpts).
Proof.
  exists xmlOpts. split; [reflexivity|].
  split; [discriminate | exact xml_not_valid].
Qed.

(** X1 at slot 7 with every option set. *)
Lemma GetBlockWithOpts_call_shape_witness :
  length (exchanges (answering emptyResponse)
            (getBlockWithOpts tt 7%N (Some signaturesOpts)) []) <= 1
  /\ Forall (fun ex : Exchange =>
               ex_ctx ex = tt /\ ex_method ex = "getBlock"
               /\ exists obj : M,
                    ex_params ex = [ParamUint64 7%N; ParamM obj])
            (exchanges (answering emptyResponse)
               (getBlockWithOpts tt 7%N (Some signaturesOpts)) []).
Proof.
  destruct (GetBlockWithOpts_call_shape
              (Hash:=unit) (Signature:=unit) (TransactionWithMeta:=unit)
              (BlockReward:=unit)
              (answering emptyResponse) [] tt 7%N (Some signaturesOpts))
    as [Hlen Hshape].
  split; [exact Hlen|]. apply Forall_forall. exact Hshape.
Defined.

(** X2: one call for base64, none for "xml". *)
Lemma GetBlockWithOpts_call_count_witness :
  length (exchanges (answering emptyResponse)
            (getBlockWithOpts tt 7%N (Some signaturesOpts)) []) = 1
  /\ exchanges (answering emptyResponse)
       (getBlockWithOpts tt 10%N (Some xmlOpts)) [] = [].
Proof.
  split.
  - apply (proj1 (GetBlockWithOpts_call_count
                    (answering emptyResponse) [] tt 7%N
                    (Some signaturesOpts))).
    right. exact base64_valid.
  - apply (proj2 (GetBlockWithOpts_call_count
                    (answering emptyResponse) [] tt 10%N
                    (Some xmlOpts))).
    exact xml_rejected.
Defined.

(** X3 against a transport that decodes a block. *)
Lemma GetBlockWithOpts_success_witness :
  returned (answering {| into := Some block; failure := None |})
           (getBlockWithOpts tt 5%N None) [] =
    (Some block, None).
Proof.
  apply GetBlockWithOpts_success.
  eexists. split; [unfold exchanges; simpl; apply list_elem_of_here|].
  split; reflexivity.
Defined.

(** X4 at the error of a transport that fails. *)
Lemma GetBlockWithOpts_error_origin_witness :
  exists ex : Exchange,
    exchanges (answering (failed (Some block) (OtherError 1 "cancelled")))
      (getBlockWithOpts tt 5%N None) [] = [ex]
    /\ failure (ex_response ex) = Some (OtherError 1 "cancelled").
Proof.
  destruct (GetBlockWithOpts_error_origin
              (answering (failed (Some block) (OtherError 1 "cancelled")))
              [] tt 5%N None (OtherError 1 "cancelled") eq_refl)
    as [(o & Ho & _) | [Hex | (ex & _ & _ & _ & He)]].
  - discriminate Ho.
  - exact Hex.
  - discriminate He.
Defined.

(** X5 for the bundle with every option set and the encoding "json". *)
Lemma GetBlockWithOpts_explicit_json_witness :
  getBlockWithOpts tt 7%N (Some (withEncoding "json" signaturesOpts)) =
    getBlockWithOpts tt 7%N (Some (withEncoding "" signaturesOpts)).
Proof.
  apply (GetBlockWithOpts_explicit_json
           (Hash:=unit) (Signature:=unit) (TransactionWithMeta:=unit)
           (BlockReward:=unit) tt 7%N
           (withEncoding "json" signaturesOpts)).
  reflexivity.
Defined.

(** X6 for a bundle with a commitment only: two keys. *)
Lemma GetBlockWithOpts_keys_witness :
  dom (<[ "commitment" := AnyCommitment "bogus" ]>
         ({[ "encoding" := AnyEncoding "json" ]} : M)) =
    keysOf {| Encoding := ""; TransactionDetails := "";
              Rewards := None; Commitment := "bogus" |}.
Proof.
  apply (GetBlockWithOpts_keys
           (Hash:=unit) (Signature:=unit) (TransactionWithMeta:=unit)
           (BlockReward:=unit) tt 7%N).
  reflexivity.
Defined.

(** X7: "xml" is named in the message whatever else the bundle holds. *)
Lemma GetBlockWithOpts_error_names_encoding_witness :
  exists msg1 msg2 : string,
    returned (answering emptyResponse)
             (getBlockWithOpts tt 10%N (Some xmlOpts)) [] =
      (None, Some (Errorf msg1))
    /\ returned (answering (failed None ErrNotConfirmed))
               (getBlockWithOpts tt 7%N
                  (Some (withEncoding "xml" signaturesOpts))) [] =
        (None, Some (Errorf msg2))
    /\ (msg1 = msg2 <-> "xml" = "xml").
Proof.
  apply (GetBlockWithOpts_error_names_encoding
           (answering emptyResponse) (answering (failed None ErrNotConfirmed))
           [] [] tt tt 10%N 7%N xmlOpts (withEncoding "xml" signaturesOpts)).
  - exact xml_rejected.
  - exists (withEncoding "xml" signaturesOpts). split; [reflexivity|].
    split; [discriminate | exact xml_not_valid].
Defined.

(** X8 for the detail level "none". *)
Lemma GetBlockWithOpts_detail_levels_witness :
  ((<[ "transactionDetails" := AnyTransactionDetails "none" ]>
      ({[ "encoding" := AnyEncoding "json" ]} : M)) : M)
    !! "transactionDetails" = Some (AnyTransactionDetails "none").
Proof.
  apply (GetBlockWithOpts_detail_levels
           (Hash:=unit) (Signature:=unit) (TransactionWithMeta:=unit)
           (BlockReward:=unit) tt 7%N
           {| Encoding := ""; TransactionDetails := TransactionDetailsNone;
              Rewards := None; Commitment := "" |}).
  - unfold TransactionDetailsFull, TransactionDetailsSignatures,
      TransactionDetailsNone. simpl. set_solver.
  - reflexivity.
Defined.

(** X9 for the bundle with every option set. *)
Lemma GetBlockWithOpts_sends_valid_encoding_witness :
  exists (obj : M) (enc : solana.EncodingType),
    obj !! "encoding" = Some (AnyEncoding enc) /\ enc = "base64".
Proof.
  destruct (GetBlockWithOpts_sends_valid_encoding
              (Hash:=unit) (Signature:=unit) (TransactionWithMeta:=unit)
              (BlockReward:=unit)
              (answering emptyResponse) [] tt 7%N (Some signaturesOpts)
              {| ex_ctx := tt; ex_method := "getBlock";
                 ex_params :=
                   [ParamUint64 7%N;
                    ParamM (<[ "encoding" := AnyEncoding "base64" ]>
                      (<[ "commitment" := AnyCommitment "confirmed" ]>
                      (<[ "rewards" := AnyBoolPtr (Some false) ]>
                      (<[ "transactionDetails" :=
                            AnyTransactionDetails "signatures" ]>
                      {[ "encoding" := AnyEncoding "json" ]}))))];
                 ex_response := emptyResponse |})
    as (obj & enc & _ & Hlook & _ & Henc).
  - unfold exchanges. simpl. apply list_elem_of_here.
  - exists obj, enc. split; [exact Hlook | exact Henc].
Defined.

(** X10: the same failing answer to two different requests. *)
Lemma GetBlockWithOpts_answer_only_witness :
  returned (answering (failed None (OtherError 1 "cancelled")))
           (getBlockWithOpts tt 5%N None) [] =
    returned (answering (failed None (OtherError 1 "cancelled")))
             (getBlockWithOpts tt 7%N (Some signaturesOpts)) [].
Proof.
  eapply (GetBlockWithOpts_answer_only
            (answering (failed None (OtherError 1 "cancelled")))
            (answering (failed None (OtherError 1 "cancelled")))
            [] [] tt tt 5%N 7%N None (Some signaturesOpts)).
  - unfold exchanges. simpl. apply list_elem_of_here.
  - unfold exchanges. simpl. apply list_elem_of_here.
  - reflexivity.
Defined.

(** X11 against a transport that fails: the error is the transport's. *)
Lemma GetBlock_default_request_witness :
  OtherError 1 "cancelled" = ErrNotConfirmed
  \/ failure
       ((answering (failed None (OtherError 1 "cancelled")) : transport)
          [] tt "getBlock"
          [ParamUint64 5%N; ParamM {[ "encoding" := AnyEncoding "json" ]}]) =
       Some (OtherError 1 "cancelled").
Proof.
  apply (proj2 (GetBlock_default_request
                  (Hash:=unit) (Signature:=unit) (TransactionWithMeta:=unit)
                  (BlockReward:=unit)
                  (answering (failed None (OtherError 1 "cancelled")))
                  [] tt 5%N)).
  reflexivity.
Defined.
